(** * GogglesTransform: a shallow embedding of [goggles.py]

    The transform asks a face detector for landmarks, derives the size and
    the tilt of a gray rectangle from the eyes and the nose, rotates the
    rectangle and pastes it over the eyes of the sample image.

    Modelling choices, all visible in the definitions below:
    - Python numbers are real numbers ([R]); rounding of binary floating
      point is not modelled.  [/] raises [ZeroDivisionError] on a zero
      divisor, [math.sqrt] raises [ValueError] on a negative argument,
      [int] truncates toward zero.
    - Image objects live in a heap addressed by references, so that
      "the same object" and in-place mutation by [paste] can be stated.
    - The imaging library and the detector are not part of the repository.
      [detect_faces], the pixel content produced by [Image.rotate] and the
      pixel content produced by [Image.paste] are variables of the
      development; every call made to the imaging library is recorded, with
      its arguments, in the order in which it is made. *)

From Stdlib Require Import Reals Lra Lia ZArith String.
From stdpp Require Import base list.

Open Scope R_scope.

(** ** Images, references and the record of library calls *)

Definition pixel : Type := (Z * Z * Z * Z)%type.

Definition alpha (p : pixel) : Z := snd p.

Record image : Type := Image {
  im_mode : string;
  im_size : Z * Z;
  getpixel : Z -> Z -> pixel
}.

Definition ref : Type := nat.

Inductive call : Type :=
| Call_new (mode : string) (size : Z * Z) (color : Z * Z * Z)
| Call_rotate (self : ref) (angle : R) (expand : bool) (center : R * R)
| Call_paste (self : ref) (im : ref) (box : Z * Z) (mask : ref).

Record world : Type := World {
  heap : list image;
  calls : list call
}.

(** ** Outcomes and the monad of the transform *)

Inductive exn : Type := IndexError | ZeroDivisionError | ValueError.

(** [Stuck] is the only outcome that Python does not have: a reference
    that is not allocated is dereferenced. *)
Inductive outcome (A : Type) : Type :=
| Return (a : A)
| Raise (e : exn)
| Stuck.

Arguments Return {A} a.
Arguments Raise {A} e.
Arguments Stuck {A}.

Definition M (A : Type) : Type := world -> outcome A * world.

Definition ret {A} (a : A) : M A := fun w => (Return a, w).

Definition raise {A} (e : exn) : M A := fun w => (Raise e, w).

Definition bind {A B} (f : A -> M B) (m : M A) : M B :=
  fun w =>
    match m w with
    | (Return a, w') => f a w'
    | (Raise e, w') => (Raise e, w')
    | (Stuck, w') => (Stuck, w')
    end.

#[global] Instance M_ret : MRet M := @ret.
#[global] Instance M_bind : MBind M := @bind.

(** ** Python primitives *)

(** [l[i]] for a non-negative index. *)
Definition getitem {A} (l : list A) (i : nat) : M A :=
  match l !! i with
  | Some a => ret a
  | None => raise IndexError
  end.

(** [a / b] *)
Definition truediv (a b : R) : M R :=
  if Req_dec_T b 0 then raise ZeroDivisionError else ret (a / b).

(** [math.sqrt(x)] *)
Definition math_sqrt (x : R) : M R :=
  if Rlt_dec x 0 then raise ValueError else ret (sqrt x).

(** [int(x)]: truncation toward zero. *)
Definition int (x : R) : Z :=
  if Rlt_dec x 0 then Zceil x else Zfloor x.

(** [math.pi] *)
Definition math_pi : R := PI.

(** ** Heap primitives *)

Definition deref (r : ref) : M image :=
  fun w =>
    match heap w !! r with
    | Some im => (Return im, w)
    | None => (Stuck, w)
    end.

Definition alloc (im : image) : M ref :=
  fun w => (Return (length (heap w)),
            {| heap := heap w ++ [im]; calls := calls w |}).

Definition store (r : ref) (im : image) : M unit :=
  fun w => (Return tt, {| heap := <[r := im]> (heap w); calls := calls w |}).

Definition record_call (c : call) : M unit :=
  fun w => (Return tt, {| heap := heap w; calls := calls w ++ [c] |}).

(** ** The imaging library, as the transform uses it *)

(** [ImageColor.getrgb("LightGray")]: the colour table maps the name to
    [#d3d3d3]. *)
Definition LightGray : Z * Z * Z := (211, 211, 211)%Z.

(** The image that [Image.new] builds: one colour everywhere, opaque. *)
Definition solid (mode : string) (size : Z * Z) (color : Z * Z * Z) : image :=
  {| im_mode := mode;
     im_size := size;
     getpixel := fun _ _ => (color, 255%Z) |}.

(** [Image.new(mode, size, color)]: a negative size is refused.  The
    library's refusal of sizes too large for memory is not modelled: sizes
    are unbounded integers. *)
Definition Image_new (mode : string) (size : Z * Z) (color : Z * Z * Z)
  : M ref :=
  record_call (Call_new mode size color) ;;
  if ((fst size <? 0) || (snd size <? 0))%Z then raise ValueError
  else alloc (solid mode size color).

Section GogglesTransform.

(** [data_utils.detect_faces]: bounding boxes and, per face, a flat array
    of landmark coordinates. *)
Variable detect_faces : image -> list (list R) * list (list R).

(** The image that [self.rotate(angle, expand=..., center=...)] returns. *)
Variable Image_rotate : image -> R -> bool -> R * R -> image.

(** The content of [self] after [self.paste(im, box, mask)]. *)
Variable Image_paste : image -> image -> Z * Z -> image -> image.

Definition rotate (self : ref) (angle : R) (expand : bool) (center : R * R)
  : M ref :=
  record_call (Call_rotate self angle expand center) ;;
  im ← deref self;
  alloc (Image_rotate im angle expand center).

Definition size (self : ref) : M (Z * Z) :=
  im ← deref self;
  ret (im_size im).

Definition paste (self : ref) (im : ref) (box : Z * Z) (mask : ref)
  : M unit :=
  record_call (Call_paste self im box mask) ;;
  dst ← deref self;
  src ← deref im;
  msk ← deref mask;
  store self (Image_paste dst src box msk).

(** Lines 12 to 17 of [__call__]: the six reads of [landmarks[0]]. *)
Definition read_landmarks (landmarks : list (list R))
  : M (R * R * R * R * R * R) :=
  left_eye_x ← (row ← getitem landmarks 0; getitem row 0);
  left_eye_y ← (row ← getitem landmarks 0; getitem row 5);
  right_eye_x ← (row ← getitem landmarks 0; getitem row 1);
  right_eye_y ← (row ← getitem landmarks 0; getitem row 6);
  nose_x ← (row ← getitem landmarks 0; getitem row 2);
  nose_y ← (row ← getitem landmarks 0; getitem row 7);
  ret (left_eye_x, left_eye_y, right_eye_x, right_eye_y, nose_x, nose_y).

(** [GogglesTransform.__call__].  Divisions by the literal [2] and by
    [math.pi] cannot raise and are written with the division of [R]; the
    local names [eyes], [drop] and [slope] hold the values of the two
    [math.sqrt] calls and of the quotient of line 24. *)
Definition __call__ (sample : ref) : M ref :=
  img ← deref sample;
  let '(bounding_boxes, landmarks) := detect_faces img in
  if (length landmarks =? 0)%nat then ret sample
  else
    '(left_eye_x, left_eye_y, right_eye_x, right_eye_y, nose_x, nose_y)
      ← read_landmarks landmarks;
    let middle_eyes_x := (right_eye_x + left_eye_x) / 2 in
    let middle_eyes_y := (right_eye_y + left_eye_y) / 2 in
    eyes ← math_sqrt ((right_eye_y - left_eye_y) ^ 2
                       + (right_eye_x - left_eye_x) ^ 2);
    let googles_width := 2.2 * eyes in
    drop ← math_sqrt ((middle_eyes_y - nose_y) ^ 2
                       + (middle_eyes_x - nose_x) ^ 2);
    let googles_height := 1.5 * drop in
    rectangle ← Image_new "RGBA" (int googles_width, int googles_height)
                           LightGray;
    let middle_rectangle_x := googles_width / 2 in
    let middle_rectangle_y := googles_height / 2 in
    slope ← truediv (right_eye_y - left_eye_y)
                     (right_eye_x - left_eye_x);
    let angle := slope * 180 / math_pi in
    rectangle ← rotate rectangle (- angle) true
                        (middle_rectangle_x, middle_rectangle_y);
    final_size ← size rectangle;
    paste sample rectangle
          (int (middle_eyes_x - IZR (fst final_size) / 2),
           int (middle_eyes_y - IZR (snd final_size) / 2))
          rectangle ;;
    ret sample.

End GogglesTransform.

Arguments __call__ detect_faces Image_rotate Image_paste sample w : rename.

(** ** The vocabulary of the specification *)

Definition point : Type := (R * R)%type.

(** A face's landmark array holds five x-coordinates followed by five
    y-coordinates: point [i] is (entry [i], entry [i + 5]). *)
Definition landmark_point (row : list R) (i : nat) : option point :=
  x ← row !! i; y ← row !! (i + 5)%nat; Some (x, y).

Definition left_eye (row : list R) : option point := landmark_point row 0.
Definition right_eye (row : list R) : option point := landmark_point row 1.
Definition nose (row : list R) : option point := landmark_point row 2.

(** Euclidean distance and arithmetic mean of two points. *)
Definition euclid (p q : point) : R :=
  sqrt ((fst p - fst q) ^ 2 + (snd p - snd q) ^ 2).

Definition midpoint (p q : point) : point :=
  ((fst p + fst q) / 2, (snd p + snd q) / 2).

Definition overlay_width (le re : point) : R := 2.2 * euclid le re.

Definition overlay_height (le re n : point) : R :=
  1.5 * euclid (midpoint le re) n.

(** The slope of the eye line, read as radians and converted to degrees. *)
Definition slope_degrees (le re : point) : R :=
  (snd re - snd le) / (fst re - fst le) * (180 / PI).

(** ** The objects that a completed call builds *)

Definition rectangle_of (le re n : point) : image :=
  solid "RGBA"
        (Zfloor (overlay_width le re), Zfloor (overlay_height le re n))
        LightGray.

(** The top-left corner that centres a box of size [sz] on [mid], after
    truncation. *)
Definition anchor (mid : point) (sz : Z * Z) : Z * Z :=
  (int (fst mid - IZR (fst sz) / 2), int (snd mid - IZR (snd sz) / 2)).

(** The image that line 25 builds. *)
Definition rotated_of (Image_rotate : image -> R -> bool -> R * R -> image)
  (le re n : point) : image :=
  Image_rotate (rectangle_of le re n) (- slope_degrees le re) true
               (overlay_width le re / 2, overlay_height le re n / 2).

(** The centre of an image of integer size. *)
Definition image_center (im : image) : R * R :=
  (IZR (fst (im_size im)) / 2, IZR (snd (im_size im)) / 2).

(** ** The pasted region and the contracts of the imaging library *)

(** The region that [paste] writes: the box with top-left corner [box] and
    the size of the pasted image. *)
Definition in_box (box sz : Z * Z) (x y : Z) : bool :=
  ((fst box <=? x) && (x <? fst box + fst sz)
   && (snd box <=? y) && (y <? snd box + snd sz))%Z.

(** [paste] with a mask leaves a pixel as it was outside the region, and
    inside it wherever the mask is fully transparent. *)
Definition paste_contract
  (Image_paste : image -> image -> Z * Z -> image -> image) : Prop :=
  forall dst src box msk x y,
    in_box box (im_size src) x y = false
    \/ alpha (getpixel msk (x - fst box) (y - snd box)) = 0%Z ->
    getpixel (Image_paste dst src box msk) x y = getpixel dst x y.

(** [rotate] by a zero angle with [expand] keeps the size. *)
Definition rotate_zero_contract
  (Image_rotate : image -> R -> bool -> R * R -> image) : Prop :=
  forall im center,
    (0 <= fst (im_size im))%Z -> (0 <= snd (im_size im))%Z ->
    im_size (Image_rotate im 0 true center) = im_size im.

(** ** A reference imaging library

    One implementation of [paste] and [rotate] that meets the contracts; it
    is used to run the transform on concrete inputs. *)

(** One channel of [b] over [a] under mask value [m], rounded to the
    nearest integer. *)
Definition blend (m a b : Z) : Z :=
  ((a * (255 - m) + b * m + 127) / 255)%Z.

Definition blend_pixel (m : Z) (p q : pixel) : pixel :=
  let '(r1, g1, b1, a1) := p in
  let '(r2, g2, b2, a2) := q in
  (blend m r1 r2, blend m g1 g2, blend m b1 b2, blend m a1 a2).

Definition paste_ref (dst src : image) (box : Z * Z) (msk : image) : image :=
  {| im_mode := im_mode dst;
     im_size := im_size dst;
     getpixel := fun x y =>
       if in_box box (im_size src) x y then
         let u := (x - fst box)%Z in
         let v := (y - snd box)%Z in
         blend_pixel (alpha (getpixel msk u v))
                     (getpixel dst x y) (getpixel src u v)
       else getpixel dst x y |}.

(** The point [p] turned by [a] radians about [c]. *)
Definition turn (a : R) (c p : R * R) : R * R :=
  (fst c + cos a * (fst p - fst c) - sin a * (snd p - snd c),
   snd c + sin a * (fst p - fst c) + cos a * (snd p - snd c)).

Definition Rmin4 (a b c d : R) : R := Rmin (Rmin a b) (Rmin c d).
Definition Rmax4 (a b c d : R) : R := Rmax (Rmax a b) (Rmax c d).

(** The canvas is the box around the four turned corners, placed so that
    the source sits in its middle; a pixel takes the value of the source
    pixel under its centre, and is transparent where there is none. *)
Definition rotate_ref (im : image) (angle : R) (expand : bool)
  (center : R * R) : image :=
  let a := angle * PI / 180 in
  let w := fst (im_size im) in
  let h := snd (im_size im) in
  let p1 := turn a center (0, 0) in
  let p2 := turn a center (IZR w, 0) in
  let p3 := turn a center (IZR w, IZR h) in
  let p4 := turn a center (0, IZR h) in
  let x0 := Zfloor (Rmin4 (fst p1) (fst p2) (fst p3) (fst p4)) in
  let x1 := Zceil (Rmax4 (fst p1) (fst p2) (fst p3) (fst p4)) in
  let y0 := Zfloor (Rmin4 (snd p1) (snd p2) (snd p3) (snd p4)) in
  let y1 := Zceil (Rmax4 (snd p1) (snd p2) (snd p3) (snd p4)) in
  let nw := if expand then (x1 - x0)%Z else w in
  let nh := if expand then (y1 - y0)%Z else h in
  {| im_mode := im_mode im;
     im_size := (nw, nh);
     getpixel := fun x y =>
       let q := turn a center
                     (IZR x + 0.5 - IZR (nw - w) / 2,
                      IZR y + 0.5 - IZR (nh - h) / 2) in
       let u := Zfloor (fst q) in
       let v := Zfloor (snd q) in
       if ((0 <=? u) && (u <? w) && (0 <=? v) && (v <? h))%Z
       then getpixel im u v
       else (0, 0, 0, 0)%Z |}.

(** ** Concrete inputs *)

Definition sample_image : image := solid "RGB" (64, 64)%Z (0, 0, 0)%Z.

Definition w0 : world := {| heap := [sample_image]; calls := [] |}.

Definition no_face (_ : image) : list (list R) * list (list R) := ([], []).

(** One face, eyes level at (0,0) and (10,0), nose at (5,10); a second
    face follows. *)
Definition level_face (_ : image) : list (list R) * list (list R) :=
  ([[0; 0; 10; 10; 1]; [20; 20; 30; 30; 1]],
   [[0; 10; 5; 2; 8; 0; 0; 10; 14; 14];
    [20; 30; 25; 22; 28; 20; 20; 30; 34; 34]]).

(** The same first face alone, without bounding boxes. *)
Definition level_face_alone (_ : image) : list (list R) * list (list R) :=
  ([], [[0; 10; 5; 2; 8; 0; 0; 10; 14; 14]]).

(** The same eyes and nose with other mouth corners, and a longer row. *)
Definition level_face_other_mouth (_ : image)
  : list (list R) * list (list R) :=
  ([[1; 1; 9; 9; 1]], [[0; 10; 5; 3; 7; 0; 0; 10; 15; 15; 99]]).

(** Eyes on the diagonal, at (0,0) and (10,10). *)
Definition tilted_face (_ : image) : list (list R) * list (list R) :=
  ([], [[0; 10; 5; 2; 8; 0; 10; 15; 20; 20]]).

(** Eyes one above the other, at (4,0) and (4,10). *)
Definition upright_face (_ : image) : list (list R) * list (list R) :=
  ([], [[4; 4; 9; 2; 8; 0; 10; 5; 14; 14]]).

(** A row of nine entries, and a row of seven. *)
Definition nine_entries (_ : image) : list (list R) * list (list R) :=
  ([], [[0; 10; 5; 2; 8; 0; 0; 10; 14]]).

Definition seven_entries (_ : image) : list (list R) * list (list R) :=
  ([], [[0; 10; 5; 2; 8; 0; 0]]).


(** ** Vocabulary of the further properties *)


(** The level face with the two eyes exchanged. *)
Definition exchanged_face (_ : image) : list (list R) * list (list R) :=
  ([], [[10; 0; 5; 2; 8; 0; 0; 10; 14; 14]]).

(** Level eyes at (10.1, 20.4) and (30.1, 20.4), nose at (20.1, 41.4). *)
Definition offset_face (_ : image) : list (list R) * list (list R) :=
  ([], [[10.1; 30.1; 20.1; 0; 0; 20.4; 20.4; 41.4; 0; 0]]).

(** Eight entries, the least that line 17 needs. *)
Definition eight_entries (_ : image) : list (list R) * list (list R) :=
  ([], [[0; 10; 5; 2; 8; 0; 0; 10]]).

(** Eyes at (0,0) and (1,2): a slope of 2. *)
Definition steep_face (_ : image) : list (list R) * list (list R) :=
  ([], [[0; 1; 0; 0; 0; 0; 2; 3; 0; 0]]).


(** ** Running the primitives *)

Lemma mbind_Return {A B} (m : M A) (f : A -> M B) w a w' :
  m w = (Return a, w') -> (m ≫= f) w = f a w'.
Proof. intros E. unfold mbind, M_bind, bind. now rewrite E. Qed.

Lemma mbind_Raise {A B} (m : M A) (f : A -> M B) w e w' :
  m w = (Raise e, w') -> (m ≫= f) w = (Raise e, w').
Proof. intros E. unfold mbind, M_bind, bind. now rewrite E. Qed.

Lemma mbind_Stuck {A B} (m : M A) (f : A -> M B) w w' :
  m w = (Stuck, w') -> (m ≫= f) w = (Stuck, w').
Proof. intros E. unfold mbind, M_bind, bind. now rewrite E. Qed.

Lemma getitem_Some {A} (l : list A) i a w :
  l !! i = Some a -> getitem l i w = (Return a, w).
Proof. intros E. unfold getitem. now rewrite E. Qed.

Lemma getitem_None {A} (l : list A) i w :
  l !! i = None -> getitem l i w = (Raise IndexError, w).
Proof. intros E. unfold getitem. now rewrite E. Qed.

Lemma math_sqrt_ok x w : 0 <= x -> math_sqrt x w = (Return (sqrt x), w).
Proof. intros Hx. unfold math_sqrt. destruct (Rlt_dec x 0); [lra | reflexivity]. Qed.

Lemma truediv_ok a b w : b <> 0 -> truediv a b w = (Return (a / b), w).
Proof. intros Hb. unfold truediv. destruct (Req_dec_T b 0); [contradiction | reflexivity]. Qed.

Lemma truediv_zero a w : truediv a 0 w = (Raise ZeroDivisionError, w).
Proof. unfold truediv. destruct (Req_dec_T 0 0); [reflexivity | contradiction]. Qed.

Lemma int_nonneg x : 0 <= x -> int x = Zfloor x.
Proof. intros Hx. unfold int. destruct (Rlt_dec x 0); [lra | reflexivity]. Qed.

Lemma Zfloor_nonneg x : 0 <= x -> (0 <= Zfloor x)%Z.
Proof. intros Hx. apply Zfloor_lub. exact Hx. Qed.

(** [int] moves its argument by less than one. *)
Lemma int_within_one x : Rabs (IZR (int x) - x) < 1.
Proof.
  unfold int. destruct (Rlt_dec x 0).
  - pose proof (Zceil_bound x). apply Rabs_def1; lra.
  - pose proof (Zfloor_bound x). apply Rabs_def1; lra.
Qed.

Lemma deref_Some r im w : heap w !! r = Some im -> deref r w = (Return im, w).
Proof. intros E. unfold deref. now rewrite E. Qed.

Lemma deref_None r w : heap w !! r = None -> deref r w = (Stuck, w).
Proof. intros E. unfold deref. now rewrite E. Qed.

Lemma record_call_ok c w :
  record_call c w
  = (Return tt, {| heap := heap w; calls := calls w ++ [c] |}).
Proof. reflexivity. Qed.

Lemma Image_new_ok mode sz color w :
  (0 <= fst sz)%Z -> (0 <= snd sz)%Z ->
  Image_new mode sz color w
  = (Return (length (heap w)),
     {| heap := heap w ++ [solid mode sz color];
        calls := calls w ++ [Call_new mode sz color] |}).
Proof.
  intros H1 H2. unfold Image_new.
  erewrite mbind_Return by apply record_call_ok.
  destruct (Z.ltb_spec (fst sz) 0); [lia |].
  destruct (Z.ltb_spec (snd sz) 0); [lia |].
  reflexivity.
Qed.

Lemma rotate_ok Image_rotate self angle expand center im w :
  heap w !! self = Some im ->
  rotate Image_rotate self angle expand center w
  = (Return (length (heap w)),
     {| heap := heap w ++ [Image_rotate im angle expand center];
        calls := calls w ++ [Call_rotate self angle expand center] |}).
Proof.
  intros E. unfold rotate.
  erewrite mbind_Return by apply record_call_ok.
  erewrite mbind_Return by (apply deref_Some; exact E).
  reflexivity.
Qed.

Lemma size_ok self im w :
  heap w !! self = Some im -> size self w = (Return (im_size im), w).
Proof.
  intros E. unfold size.
  erewrite mbind_Return by (apply deref_Some; exact E).
  reflexivity.
Qed.

Lemma paste_ok Image_paste self im box mask dst src msk w :
  heap w !! self = Some dst -> heap w !! im = Some src ->
  heap w !! mask = Some msk ->
  paste Image_paste self im box mask w
  = (Return tt,
     {| heap := <[self := Image_paste dst src box msk]> (heap w);
        calls := calls w ++ [Call_paste self im box mask] |}).
Proof.
  intros E1 E2 E3. unfold paste.
  erewrite mbind_Return by apply record_call_ok.
  erewrite mbind_Return by (apply deref_Some; exact E1).
  erewrite mbind_Return by (apply deref_Some; exact E2).
  erewrite mbind_Return by (apply deref_Some; exact E3).
  reflexivity.
Qed.

(** ** Running lines 12 to 17 *)

Lemma read_landmarks_first (row : list R) (rest : list (list R)) w :
  read_landmarks (row :: rest) w
  = (match left_eye row, right_eye row, nose row with
     | Some le, Some re, Some n =>
         Return (fst le, snd le, fst re, snd re, fst n, snd n)
     | _, _, _ => Raise IndexError
     end, w).
Proof.
  unfold read_landmarks, left_eye, right_eye, nose, landmark_point.
  unfold getitem, mbind, M_bind, bind, option_bind. simpl.
  destruct (row !! 0%nat); [| reflexivity].
  destruct (row !! 5%nat); [| reflexivity].
  destruct (row !! 1%nat); [| reflexivity].
  destruct (row !! 6%nat); [| reflexivity].
  destruct (row !! 2%nat); [| reflexivity].
  destruct (row !! 7%nat); reflexivity.
Qed.

(** ** The quantities of the code, in the vocabulary of the specification *)

Lemma eyes_distance (le re : point) :
  sqrt ((snd re - snd le) ^ 2 + (fst re - fst le) ^ 2) = euclid le re.
Proof. unfold euclid. f_equal. ring. Qed.

Lemma nose_distance (le re n : point) :
  sqrt (((snd re + snd le) / 2 - snd n) ^ 2
        + ((fst re + fst le) / 2 - fst n) ^ 2)
  = euclid (midpoint le re) n.
Proof. unfold euclid, midpoint. simpl. f_equal. field. Qed.

Lemma midpoint_comm p q : midpoint p q = midpoint q p.
Proof. unfold midpoint. f_equal; lra. Qed.

Lemma sum_squares_nonneg a b : 0 <= a ^ 2 + b ^ 2.
Proof. nra. Qed.

Lemma euclid_nonneg p q : 0 <= euclid p q.
Proof. apply sqrt_pos. Qed.

Lemma overlay_width_nonneg le re : 0 <= overlay_width le re.
Proof. unfold overlay_width. pose proof (euclid_nonneg le re). nra. Qed.

Lemma overlay_height_nonneg le re n : 0 <= overlay_height le re n.
Proof.
  unfold overlay_height. pose proof (euclid_nonneg (midpoint le re) n). nra.
Qed.

Lemma slope_degrees_code (le re : point) :
  (snd re - snd le) / (fst re - fst le) * 180 / math_pi = slope_degrees le re.
Proof. unfold slope_degrees, math_pi, Rdiv. ring. Qed.

Section Runs.

Variable detect_faces : image -> list (list R) * list (list R).
Variable Image_rotate : image -> R -> bool -> R * R -> image.
Variable Image_paste : image -> image -> Z * Z -> image -> image.

Variables (sample : ref) (w : world) (img : image).
Variables (bbs rest : list (list R)) (row : list R).
Hypothesis Hsample : heap w !! sample = Some img.
Hypothesis Hdetect : detect_faces img = (bbs, row :: rest).

Lemma call_IndexError :
  (left_eye row = None \/ right_eye row = None \/ nose row = None) ->
  __call__ detect_faces Image_rotate Image_paste sample w
  = (Raise IndexError, w).
Proof.
  intros Hbad. unfold __call__.
  erewrite mbind_Return by (apply deref_Some; exact Hsample).
  rewrite Hdetect. cbv beta iota.
  change (length (row :: rest) =? 0)%nat with false. cbv iota.
  apply mbind_Raise. rewrite read_landmarks_first.
  destruct Hbad as [E | [E | E]]; rewrite E;
    repeat match goal with |- context [match ?o with _ => _ end] =>
             destruct o end; reflexivity.
Qed.

Variables le re n : point.
Hypothesis Hle : left_eye row = Some le.
Hypothesis Hre : right_eye row = Some re.
Hypothesis Hn : nose row = Some n.

(** Lines 9 to 23: everything before the division. *)
Lemma call_prefix :
  __call__ detect_faces Image_rotate Image_paste sample w
  = (slope ← truediv (snd re - snd le) (fst re - fst le);
     let angle := slope * 180 / math_pi in
     rectangle ← rotate Image_rotate (length (heap w)) (- angle) true
                        (overlay_width le re / 2,
                         overlay_height le re n / 2);
     final_size ← size rectangle;
     paste Image_paste sample rectangle
           (anchor (midpoint re le) final_size) rectangle ;;
     ret sample)
      {| heap := heap w ++ [rectangle_of le re n];
         calls := calls w
                  ++ [Call_new "RGBA"
                        (Zfloor (overlay_width le re),
                         Zfloor (overlay_height le re n))
                        LightGray] |}.
Proof.
  unfold __call__.
  erewrite mbind_Return by (apply deref_Some; exact Hsample).
  rewrite Hdetect. cbv beta iota.
  change (length (row :: rest) =? 0)%nat with false. cbv iota.
  erewrite mbind_Return
    by (rewrite read_landmarks_first, Hle, Hre, Hn; reflexivity).
  cbv beta iota zeta.
  erewrite mbind_Return by (apply math_sqrt_ok, sum_squares_nonneg).
  erewrite mbind_Return by (apply math_sqrt_ok, sum_squares_nonneg).
  rewrite eyes_distance, nose_distance.
  fold (overlay_width le re). fold (overlay_height le re n).
  rewrite !int_nonneg
    by auto using overlay_width_nonneg, overlay_height_nonneg.
  erewrite mbind_Return
    by (apply Image_new_ok; apply Zfloor_nonneg;
        auto using overlay_width_nonneg, overlay_height_nonneg).
  reflexivity.
Qed.

(** Line 24 divides by zero when the eyes share their x-coordinate. *)
Lemma call_ZeroDivisionError :
  fst le = fst re ->
  __call__ detect_faces Image_rotate Image_paste sample w
  = (Raise ZeroDivisionError,
     {| heap := heap w ++ [rectangle_of le re n];
        calls := calls w
                 ++ [Call_new "RGBA"
                       (Zfloor (overlay_width le re),
                        Zfloor (overlay_height le re n))
                       LightGray] |}).
Proof.
  intros E. rewrite call_prefix. apply mbind_Raise.
  replace (fst re - fst le) with 0 by lra. apply truediv_zero.
Qed.

(** Lines 24 to 28 otherwise. *)
Lemma call_completes :
  fst le <> fst re ->
  let rot := rotated_of Image_rotate le re n in
  let box := anchor (midpoint le re) (im_size rot) in
  let r1 := length (heap w) in
  let r2 := S (length (heap w)) in
  __call__ detect_faces Image_rotate Image_paste sample w
  = (Return sample,
     {| heap := <[sample := Image_paste img rot box rot]>
                  (heap w ++ [rectangle_of le re n; rot]);
        calls := calls w
                 ++ [Call_new "RGBA"
                       (Zfloor (overlay_width le re),
                        Zfloor (overlay_height le re n))
                       LightGray;
                     Call_rotate r1 (- slope_degrees le re) true
                       (overlay_width le re / 2,
                        overlay_height le re n / 2);
                     Call_paste sample r2 box r2] |}).
Proof.
  intros Hne rot box r1 r2. rewrite call_prefix.
  erewrite mbind_Return by (apply truediv_ok; lra).
  cbv zeta. rewrite slope_degrees_code.
  erewrite mbind_Return
    by (apply rotate_ok; cbn [heap]; now apply list_lookup_middle).
  cbn [heap calls]. fold (rotated_of Image_rotate le re n). fold rot.
  assert (Hr2 : length (heap w ++ [rectangle_of le re n]) = r2)
    by (rewrite length_app; cbn; unfold r2; lia).
  rewrite Hr2.
  assert (Hrot : ((heap w ++ [rectangle_of le re n]) ++ [rot]) !! r2
                 = Some rot)
    by (now apply list_lookup_middle).
  erewrite mbind_Return by (apply size_ok; cbn [heap]; exact Hrot).
  erewrite mbind_Return.
  2:{ apply paste_ok with (dst := img) (src := rot) (msk := rot);
      cbn [heap]; try exact Hrot.
      rewrite !lookup_app_l; [exact Hsample | |];
        rewrite ?length_app; apply lookup_lt_Some in Hsample; lia. }
  cbn [heap calls]. rewrite midpoint_comm. fold box.
  rewrite <- !app_assoc. reflexivity.
Qed.

End Runs.

(** No face: lines 10 and 11. *)
Lemma call_no_face detect_faces Image_rotate Image_paste sample w img bbs :
  heap w !! sample = Some img ->
  detect_faces img = (bbs, []) ->
  __call__ detect_faces Image_rotate Image_paste sample w = (Return sample, w).
Proof.
  intros Hsample Hdetect. unfold __call__.
  erewrite mbind_Return by (apply deref_Some; exact Hsample).
  rewrite Hdetect. reflexivity.
Qed.

Lemma blend_transparent a b : blend 0 a b = a.
Proof.
  unfold blend. rewrite Z.sub_0_r, Z.mul_0_r, Z.add_0_r.
  rewrite Z.add_comm, Z.div_add by lia. reflexivity.
Qed.

Lemma paste_ref_contract : paste_contract paste_ref.
Proof.
  intros dst src box msk x y [Hout | Hclear]; cbn.
  - now rewrite Hout.
  - destruct (in_box box (im_size src) x y); [| reflexivity].
    rewrite Hclear. unfold blend_pixel.
    destruct (getpixel dst x y) as [[[r1 g1] b1] a1].
    destruct (getpixel src (x - fst box) (y - snd box)) as [[[r2 g2] b2] a2].
    now rewrite !blend_transparent.
Qed.

Lemma turn_zero c p : turn 0 c p = p.
Proof.
  unfold turn. rewrite cos_0, sin_0. destruct p as [px py]. cbn.
  f_equal; ring.
Qed.

Lemma Zceil_IZR z : Zceil (IZR z) = z.
Proof. unfold Zceil. rewrite ZfloorNZ. lia. Qed.

Lemma rotate_ref_zero_contract : rotate_zero_contract rotate_ref.
Proof.
  intros im center Hw Hh. unfold rotate_ref. cbv zeta. cbn [im_size].
  replace (0 * PI / 180) with 0 by (unfold Rdiv; ring).
  rewrite !turn_zero. cbn [fst snd]. unfold Rmin4, Rmax4.
  apply IZR_le in Hw, Hh.
  set (W := IZR (fst (im_size im))) in *.
  set (H := IZR (snd (im_size im))) in *.
  rewrite (Rmin_left 0 W), (Rmin_right W 0), (Rmin_left 0 0) by lra.
  rewrite (Rmax_right 0 W), (Rmax_left W 0), (Rmax_left W W) by lra.
  rewrite (Rmin_left H H), (Rmin_left 0 H) by lra.
  rewrite (Rmax_left 0 0), (Rmax_left H H), (Rmax_right 0 H) by lra.
  subst W H.
  rewrite !ZfloorZ, !Zceil_IZR, !Z.sub_0_r.
  now destruct (im_size im).
Qed.

(** ** Dependence on the detector's answer *)

Lemma landmark_point_agree (row1 row2 : list R) i :
  row1 !! i = row2 !! i -> row1 !! (i + 5)%nat = row2 !! (i + 5)%nat ->
  landmark_point row1 i = landmark_point row2 i.
Proof. intros E1 E2. unfold landmark_point. now rewrite E1, E2. Qed.

(** Two answers of the detector whose first rows give the same three points
    lead to the same run. *)
Lemma call_depends_on_points
  detect1 detect2 Image_rotate Image_paste sample w img
  bbs1 bbs2 (row1 row2 : list R) rest1 rest2 :
  heap w !! sample = Some img ->
  detect1 img = (bbs1, row1 :: rest1) ->
  detect2 img = (bbs2, row2 :: rest2) ->
  left_eye row1 = left_eye row2 ->
  right_eye row1 = right_eye row2 ->
  nose row1 = nose row2 ->
  __call__ detect1 Image_rotate Image_paste sample w
  = __call__ detect2 Image_rotate Image_paste sample w.
Proof.
  intros Hs H1 H2 El Er En.
  destruct (left_eye row2) as [le |] eqn:Hle2;
    [| rewrite !(call_IndexError _ _ _ _ _ _ _ _ _ Hs) by eauto;
       reflexivity].
  destruct (right_eye row2) as [re |] eqn:Hre2;
    [| rewrite (call_IndexError _ _ _ _ _ _ _ _ _ Hs H1) by eauto;
       rewrite (call_IndexError _ _ _ _ _ _ _ _ _ Hs H2) by eauto;
       reflexivity].
  destruct (nose row2) as [n |] eqn:Hn2;
    [| rewrite (call_IndexError _ _ _ _ _ _ _ _ _ Hs H1) by eauto;
       rewrite (call_IndexError _ _ _ _ _ _ _ _ _ Hs H2) by eauto;
       reflexivity].
  destruct (Req_dec_T (fst le) (fst re)) as [E | E].
  - rewrite (call_ZeroDivisionError _ _ _ _ _ _ _ _ _ Hs H1 _ _ _ El Er En E).
    rewrite (call_ZeroDivisionError _ _ _ _ _ _ _ _ _ Hs H2 _ _ _ Hle2 Hre2 Hn2 E).
    reflexivity.
  - rewrite (call_completes _ _ _ _ _ _ _ _ _ Hs H1 _ _ _ El Er En E).
    rewrite (call_completes _ _ _ _ _ _ _ _ _ Hs H2 _ _ _ Hle2 Hre2 Hn2 E).
    reflexivity.
Qed.

(** A row shorter than eight entries has no nose. *)
Lemma short_row_no_nose (row : list R) : (length row < 8)%nat -> nose row = None.
Proof.
  intros Hlen. unfold nose, landmark_point.
  destruct (row !! 2%nat); [| reflexivity]. cbn.
  rewrite (lookup_ge_None_2 row 7) by lia. reflexivity.
Qed.

(** ** The two objects that a run appends to the heap *)

Lemma lookup_appended_first {A} (l : list A) a more :
  (l ++ a :: more) !! length l = Some a.
Proof. now apply list_lookup_middle. Qed.

Lemma lookup_appended_second {A} (l : list A) a b more :
  (l ++ a :: b :: more) !! S (length l) = Some b.
Proof.
  rewrite lookup_app_r by lia.
  replace (S (length l) - length l)%nat with 1%nat by lia. reflexivity.
Qed.

Lemma last_appended_third {A} (l : list A) a b c :
  last (l ++ [a; b; c]) = Some c.
Proof.
  change (l ++ [a; b; c]) with (l ++ ([a; b] ++ [c])).
  rewrite app_assoc. apply last_snoc.
Qed.

(** ** Every run, by cases *)

Lemma landmark_point_Some (row : list R) i p :
  landmark_point row i = Some p ->
  row !! i = Some (fst p) /\ row !! (i + 5)%nat = Some (snd p).
Proof.
  unfold landmark_point. intros H.
  destruct (row !! i) as [x |]; [| discriminate]. cbn in H.
  destruct (row !! (i + 5)%nat) as [y |]; [| discriminate]. cbn in H.
  injection H as <-. split; reflexivity.
Qed.

Lemma landmark_point_long (row : list R) i :
  (i + 5 < length row)%nat -> exists p, landmark_point row i = Some p.
Proof.
  intros Hlen. unfold landmark_point.
  destruct (lookup_lt_is_Some_2 row i) as [x Hx]; [lia |].
  destruct (lookup_lt_is_Some_2 row (i + 5)) as [y Hy]; [lia |].
  exists (x, y). rewrite Hx. cbn. rewrite Hy. reflexivity.
Qed.

Lemma call_cases detect_faces Image_rotate Image_paste sample w img bbs lm :
  heap w !! sample = Some img ->
  detect_faces img = (bbs, lm) ->
  let run := __call__ detect_faces Image_rotate Image_paste sample w in
  (lm = [] /\ run = (Return sample, w))
  \/ (exists row rest,
        lm = row :: rest /\ (length row < 8)%nat
        /\ run = (Raise IndexError, w))
  \/ (exists row rest le re n,
        lm = row :: rest /\ (8 <= length row)%nat
        /\ left_eye row = Some le /\ right_eye row = Some re
        /\ nose row = Some n
        /\ ((fst le = fst re
             /\ run
                = (Raise ZeroDivisionError,
                   {| heap := heap w ++ [rectangle_of le re n];
                      calls := calls w
                               ++ [Call_new "RGBA"
                                     (Zfloor (overlay_width le re),
                                      Zfloor (overlay_height le re n))
                                     LightGray] |}))
            \/ (fst le <> fst re
                /\ run
                   = (Return sample,
                      {| heap :=
                           <[sample :=
                               Image_paste img
                                 (rotated_of Image_rotate le re n)
                                 (anchor (midpoint le re)
                                    (im_size
                                       (rotated_of Image_rotate le re n)))
                                 (rotated_of Image_rotate le re n)]>
                             (heap w
                              ++ [rectangle_of le re n;
                                  rotated_of Image_rotate le re n]);
                         calls :=
                           calls w
                           ++ [Call_new "RGBA"
                                 (Zfloor (overlay_width le re),
                                  Zfloor (overlay_height le re n))
                                 LightGray;
                               Call_rotate (length (heap w))
                                 (- slope_degrees le re) true
                                 (overlay_width le re / 2,
                                  overlay_height le re n / 2);
                               Call_paste sample (S (length (heap w)))
                                 (anchor (midpoint le re)
                                    (im_size
                                       (rotated_of Image_rotate le re n)))
                                 (S (length (heap w)))] |})))).
Proof.
  intros Hs Hd run. subst run. destruct lm as [| row rest].
  - left. split; [reflexivity |]. exact (call_no_face _ _ _ _ _ _ _ Hs Hd).
  - right. destruct (Nat.lt_ge_cases (length row) 8) as [Hlen | Hlen].
    + left. exists row, rest. repeat split; [exact Hlen |].
      apply (call_IndexError _ _ _ _ _ _ _ _ _ Hs Hd).
      right; right. now apply short_row_no_nose.
    + right.
      destruct (landmark_point_long row 0) as [le Hle]; [lia |].
      destruct (landmark_point_long row 1) as [re Hre]; [lia |].
      destruct (landmark_point_long row 2) as [n Hn]; [lia |].
      exists row, rest, le, re, n. repeat split; try assumption.
      destruct (Req_dec_T (fst le) (fst re)) as [E | E]; [left | right];
        (split; [exact E |]).
      * exact (call_ZeroDivisionError _ _ _ _ _ _ _ _ _ Hs Hd
                 _ _ _ Hle Hre Hn E).
      * exact (call_completes _ _ _ _ _ _ _ _ _ Hs Hd _ _ _ Hle Hre Hn E).
Qed.

Lemma landmark_point_lookups (row : list R) i x y :
  row !! i = Some x -> row !! (i + 5)%nat = Some y ->
  landmark_point row i = Some (x, y).
Proof. intros Hx Hy. unfold landmark_point. rewrite Hx. cbn. now rewrite Hy. Qed.

Lemma landmark_point_None (row : list R) i :
  row !! i = None \/ row !! (i + 5)%nat = None -> landmark_point row i = None.
Proof.
  intros [H | H]; unfold landmark_point.
  - now rewrite H.
  - destruct (row !! i); [cbn; now rewrite H | reflexivity].
Qed.

(** * The claims *)

(** C1. Identity fallback: when the detector returns an empty landmark
    list, the call returns the reference it was given, raises nothing, and
    leaves the whole world as it was: the image keeps every pixel and no
    library call is made. *)
Theorem identity_fallback
  detect_faces Image_rotate Image_paste sample w img bbs :
  heap w !! sample = Some img ->
  detect_faces img = (bbs, []) ->
  __call__ detect_faces Image_rotate Image_paste sample w = (Return sample, w).
Proof. intros Hs Hd. exact (call_no_face _ _ _ _ _ _ _ Hs Hd). Qed.

Lemma identity_fallback_witness :
  __call__ no_face rotate_ref paste_ref 0%nat w0 = (Return 0%nat, w0).
Proof.
  apply (identity_fallback no_face rotate_ref paste_ref 0%nat w0
           sample_image []); reflexivity.
Defined.

(** C2. Overlay size: for a non-empty landmark result whose first row holds
    the two eyes and the nose, the first library call builds an "RGBA"
    image filled with light gray, of size (floor(width), floor(height))
    where width is 2.2 times the Euclidean distance between the eyes and
    height is 1.5 times the Euclidean distance between the mean of the eyes
    and the nose; the image is the next object of the heap and every pixel
    of it is (211, 211, 211) at full opacity. *)
Theorem overlay_size
  detect_faces Image_rotate Image_paste sample w img bbs row rest le re n :
  heap w !! sample = Some img ->
  detect_faces img = (bbs, row :: rest) ->
  left_eye row = Some le -> right_eye row = Some re -> nose row = Some n ->
  let width := 2.2 * euclid le re in
  let height := 1.5 * euclid (midpoint le re) n in
  let w' := snd (__call__ detect_faces Image_rotate Image_paste sample w) in
  calls w' !! length (calls w)
  = Some (Call_new "RGBA" (Zfloor width, Zfloor height) LightGray)
  /\ exists rectangle,
      heap w' !! length (heap w) = Some rectangle
      /\ im_mode rectangle = "RGBA"%string
      /\ im_size rectangle = (Zfloor width, Zfloor height)
      /\ forall x y, getpixel rectangle x y = (211, 211, 211, 255)%Z.
Proof.
  intros Hs Hd Hle Hre Hn width height w'.
  assert (Hlt : (sample < length (heap w))%nat)
    by (eapply lookup_lt_Some; exact Hs).
  assert (Hrect : im_mode (rectangle_of le re n) = "RGBA"%string
            /\ im_size (rectangle_of le re n) = (Zfloor width, Zfloor height)
            /\ forall x y,
                getpixel (rectangle_of le re n) x y = (211, 211, 211, 255)%Z)
    by (repeat split).
  subst w'.
  destruct (Req_dec_T (fst le) (fst re)) as [E | E].
  - rewrite (call_ZeroDivisionError _ _ _ _ _ _ _ _ _ Hs Hd _ _ _ Hle Hre Hn E).
    cbn [snd heap calls]. split.
    + now apply list_lookup_middle.
    + exists (rectangle_of le re n). split; [| exact Hrect].
      now apply list_lookup_middle.
  - rewrite (call_completes _ _ _ _ _ _ _ _ _ Hs Hd _ _ _ Hle Hre Hn E).
    cbn [snd heap calls]. split.
    + now apply list_lookup_middle.
    + exists (rectangle_of le re n). split; [| exact Hrect].
      rewrite list_lookup_insert_ne by lia.
      now apply list_lookup_middle.
Qed.

Lemma overlay_size_witness :
  calls (snd (__call__ level_face rotate_ref paste_ref 0%nat w0)) !! 0%nat
  = Some (Call_new "RGBA"
            (Zfloor (2.2 * euclid (0, 0) (10, 0)),
             Zfloor (1.5 * euclid (midpoint (0, 0) (10, 0)) (5, 10)))
            LightGray).
Proof.
  exact (proj1 (overlay_size level_face rotate_ref paste_ref 0%nat w0
                  sample_image _ _ _ (0, 0) (10, 0) (5, 10)
                  eq_refl eq_refl eq_refl eq_refl eq_refl)).
Defined.

(** C5. Degenerate geometry: when the two eyes of the first row have the
    same x-coordinate, the call ends with ZeroDivisionError and returns
    nothing.  The fault is raised after the rectangle has been built and
    before any rotation or paste: the sample image is untouched. *)
Theorem degenerate_geometry
  detect_faces Image_rotate Image_paste sample w img bbs row rest le re n :
  heap w !! sample = Some img ->
  detect_faces img = (bbs, row :: rest) ->
  left_eye row = Some le -> right_eye row = Some re -> nose row = Some n ->
  fst le = fst re ->
  exists w',
    __call__ detect_faces Image_rotate Image_paste sample w
    = (Raise ZeroDivisionError, w')
    /\ heap w' !! sample = Some img
    /\ exists size, calls w' = calls w ++ [Call_new "RGBA" size LightGray].
Proof.
  intros Hs Hd Hle Hre Hn E.
  rewrite (call_ZeroDivisionError _ _ _ _ _ _ _ _ _ Hs Hd _ _ _ Hle Hre Hn E).
  eexists. split; [reflexivity |]. cbn [heap calls]. split.
  - rewrite lookup_app_l by (eapply lookup_lt_Some; exact Hs). exact Hs.
  - eexists. reflexivity.
Qed.

Lemma degenerate_geometry_witness :
  exists w',
    __call__ upright_face rotate_ref paste_ref 0%nat w0
    = (Raise ZeroDivisionError, w')
    /\ heap w' !! 0%nat = Some sample_image
    /\ exists size, calls w' = calls w0 ++ [Call_new "RGBA" size LightGray].
Proof.
  exact (degenerate_geometry upright_face rotate_ref paste_ref 0%nat w0
           sample_image _ _ _ (4, 0) (4, 10) (9, 5)
           eq_refl eq_refl eq_refl eq_refl eq_refl eq_refl).
Defined.

(** C7. Landmark extraction: on a non-empty landmark result the transform
    reads the first row only, at entries 0, 5, 1, 6, 2 and 7.  When one of
    the six is missing the call ends with IndexError.  When they are all
    there, (entry 0, entry 5) and (entry 1, entry 6) are used as the two
    eyes and (entry 2, entry 7) as the nose: they fix the size passed to
    [Image.new], the angle and centre passed to [rotate] and the coordinate
    passed to [paste]; on a row of five x-coordinates followed by five
    y-coordinates these are its first three points.  Nothing else of the
    detector's answer is read: another answer whose first row agrees on the
    six entries gives the same run. *)
Theorem landmark_extraction
  detect1 detect2 Image_rotate Image_paste sample w img
  bbs1 bbs2 (row1 row2 : list R) rest1 rest2 :
  heap w !! sample = Some img ->
  detect1 img = (bbs1, row1 :: rest1) ->
  detect2 img = (bbs2, row2 :: rest2) ->
  (forall i, i ∈ [0; 5; 1; 6; 2; 7]%nat -> row1 !! i = row2 !! i) ->
  let run := __call__ detect1 Image_rotate Image_paste sample w in
  run = __call__ detect2 Image_rotate Image_paste sample w
  /\ ((exists i, i ∈ [0; 5; 1; 6; 2; 7]%nat /\ row1 !! i = None) ->
      run = (Raise IndexError, w))
  /\ (forall lx ly rx ry nx ny,
        row1 !! 0%nat = Some lx -> row1 !! 5%nat = Some ly ->
        row1 !! 1%nat = Some rx -> row1 !! 6%nat = Some ry ->
        row1 !! 2%nat = Some nx -> row1 !! 7%nat = Some ny ->
        let width := 2.2 * euclid (lx, ly) (rx, ry) in
        let height :=
          1.5 * euclid (midpoint (lx, ly) (rx, ry)) (nx, ny) in
        calls (snd run) !! length (calls w)
        = Some (Call_new "RGBA" (Zfloor width, Zfloor height) LightGray)
        /\ (rx <> lx ->
            exists rotated,
              heap (snd run) !! S (length (heap w)) = Some rotated
              /\ calls (snd run)
                 = calls w
                   ++ [Call_new "RGBA" (Zfloor width, Zfloor height)
                         LightGray;
                       Call_rotate (length (heap w))
                         (- ((ry - ly) / (rx - lx) * (180 / PI))) true
                         (width / 2, height / 2);
                       Call_paste sample (S (length (heap w)))
                         (int ((lx + rx) / 2
                               - IZR (fst (im_size rotated)) / 2),
                          int ((ly + ry) / 2
                               - IZR (snd (im_size rotated)) / 2))
                         (S (length (heap w)))])).
Proof.
  intros Hs H1 H2 Hagree run. subst run.
  assert (Hlt : (sample < length (heap w))%nat)
    by (eapply lookup_lt_Some; exact Hs).
  split; [| split].
  - eapply call_depends_on_points; eauto;
      apply landmark_point_agree; apply Hagree; cbn;
      repeat (first [apply list_elem_of_here | apply list_elem_of_further]).
  - intros (i & Hi & Hnone).
    apply (call_IndexError _ _ _ _ _ _ _ _ _ Hs H1).
    unfold left_eye, right_eye, nose.
    repeat (apply elem_of_cons in Hi as [-> | Hi]);
      [ left | left | right; left | right; left | right; right
      | right; right | now apply not_elem_of_nil in Hi ];
      apply landmark_point_None; cbn; auto.
  - intros lx ly rx ry nx ny H0 H5 H1' H6 H2' H7 width height.
    pose proof (landmark_point_lookups row1 0 lx ly H0 H5) as Hle.
    pose proof (landmark_point_lookups row1 1 rx ry H1' H6) as Hre.
    pose proof (landmark_point_lookups row1 2 nx ny H2' H7) as Hn.
    fold (left_eye row1) in Hle. fold (right_eye row1) in Hre.
    fold (nose row1) in Hn.
    destruct (Req_dec_T lx rx) as [E | E].
    + rewrite (call_ZeroDivisionError _ _ _ _ _ _ _ _ _ Hs H1
                 _ _ _ Hle Hre Hn E).
      cbn [snd calls]. split; [apply lookup_appended_first |].
      intros Hne. exfalso. apply Hne. now rewrite E.
    + rewrite (call_completes _ _ _ _ _ _ _ _ _ Hs H1 _ _ _ Hle Hre Hn E).
      cbn [snd heap calls]. split; [apply lookup_appended_first |].
      intros _. exists (rotated_of Image_rotate (lx, ly) (rx, ry) (nx, ny)).
      split; [| reflexivity].
      rewrite list_lookup_insert_ne by lia. apply lookup_appended_second.
Qed.

Lemma landmark_extraction_witness :
  __call__ level_face rotate_ref paste_ref 0%nat w0
  = __call__ level_face_other_mouth rotate_ref paste_ref 0%nat w0.
Proof.
  refine (proj1 (landmark_extraction level_face level_face_other_mouth
            rotate_ref paste_ref 0%nat w0 sample_image _ _ _ _ _ _
            eq_refl eq_refl eq_refl _)).
  intros i Hi.
  repeat (apply elem_of_cons in Hi as [-> | Hi]; [reflexivity |]).
  now apply not_elem_of_nil in Hi.
Defined.

(** C8, as amended.  Malformed landmarks: on a non-empty landmark result
    whose first row has fewer than eight entries the call ends with
    IndexError, which reaches the caller; nothing has been done by then, the
    world is as it was.  Nothing else is checked: on a first row of eight
    entries or more, so also of eight or nine, short of the ten of the
    layout, no IndexError is raised and the row is processed: the rectangle
    is built. *)
Theorem malformed_landmarks
  detect_faces Image_rotate Image_paste sample w img bbs (row : list R) rest :
  heap w !! sample = Some img ->
  detect_faces img = (bbs, row :: rest) ->
  let run := __call__ detect_faces Image_rotate Image_paste sample w in
  ((length row < 8)%nat -> run = (Raise IndexError, w))
  /\ ((8 <= length row)%nat ->
      fst run <> Raise IndexError
      /\ exists size,
          calls (snd run) !! length (calls w)
          = Some (Call_new "RGBA" size LightGray)).
Proof.
  intros Hs Hd run. subst run. split.
  - intros Hlen. apply (call_IndexError _ _ _ _ _ _ _ _ _ Hs Hd).
    right; right. now apply short_row_no_nose.
  - intros Hlen.
    destruct (landmark_point_long row 0) as [le Hle]; [lia |].
    destruct (landmark_point_long row 1) as [re Hre]; [lia |].
    destruct (landmark_point_long row 2) as [n Hn]; [lia |].
    fold (left_eye row) in Hle. fold (right_eye row) in Hre.
    fold (nose row) in Hn.
    destruct (Req_dec_T (fst le) (fst re)) as [E | E].
    + rewrite (call_ZeroDivisionError _ _ _ _ _ _ _ _ _ Hs Hd
                 _ _ _ Hle Hre Hn E).
      cbn [fst snd calls]. split; [discriminate |].
      eexists. apply lookup_appended_first.
    + rewrite (call_completes _ _ _ _ _ _ _ _ _ Hs Hd _ _ _ Hle Hre Hn E).
      cbn [fst snd calls]. split; [discriminate |].
      eexists. apply lookup_appended_first.
Qed.

Lemma malformed_landmarks_witness :
  __call__ seven_entries rotate_ref paste_ref 0%nat w0
  = (Raise IndexError, w0)
  /\ fst (__call__ eight_entries rotate_ref paste_ref 0%nat w0)
     <> Raise IndexError.
Proof.
  split.
  - refine (proj1 (malformed_landmarks seven_entries rotate_ref paste_ref
                     0%nat w0 sample_image _ _ _ eq_refl eq_refl) _).
    cbn. lia.
  - refine (proj1 (proj2 (malformed_landmarks eight_entries rotate_ref
                            paste_ref 0%nat w0 sample_image _ _ _
                            eq_refl eq_refl) _)).
    cbn. lia.
Defined.

(** C9. First-face noninterference: two answers of the detector on the same
    image with the same first landmark row give the same outcome and the
    same final world, whatever their bounding boxes and their other rows. *)
Theorem first_face_noninterference
  detect1 detect2 Image_rotate Image_paste sample w img
  bbs1 bbs2 (row : list R) rest1 rest2 :
  heap w !! sample = Some img ->
  detect1 img = (bbs1, row :: rest1) ->
  detect2 img = (bbs2, row :: rest2) ->
  __call__ detect1 Image_rotate Image_paste sample w
  = __call__ detect2 Image_rotate Image_paste sample w.
Proof.
  intros Hs H1 H2. eapply call_depends_on_points; eauto.
Qed.

Lemma first_face_noninterference_witness :
  __call__ level_face rotate_ref paste_ref 0%nat w0
  = __call__ level_face_alone rotate_ref paste_ref 0%nat w0.
Proof.
  exact (first_face_noninterference level_face level_face_alone
           rotate_ref paste_ref 0%nat w0 sample_image _ _ _ _ _
           eq_refl eq_refl eq_refl).
Defined.

(** ** The concrete faces *)

Lemma sqrt_100 : sqrt 100 = 10.
Proof. replace 100 with (10 * 10) by lra. apply sqrt_square. lra. Qed.

Lemma level_width : overlay_width (0, 0) (10, 0) = 22.
Proof.
  unfold overlay_width, euclid. cbn [fst snd].
  replace ((0 - 10) ^ 2 + (0 - 0) ^ 2) with 100 by lra.
  rewrite sqrt_100. lra.
Qed.

Lemma level_height : overlay_height (0, 0) (10, 0) (5, 10) = 15.
Proof.
  unfold overlay_height, euclid, midpoint. cbn [fst snd].
  replace (((0 + 10) / 2 - 5) ^ 2 + ((0 + 0) / 2 - 10) ^ 2) with 100 by lra.
  rewrite sqrt_100. lra.
Qed.

Lemma level_slope : slope_degrees (0, 0) (10, 0) = 0.
Proof. unfold slope_degrees, Rdiv. cbn [fst snd]. ring. Qed.


Lemma sqrt_125_above : 11 < sqrt 125.
Proof.
  replace 11 with (sqrt (11 * 11)) by (apply sqrt_square; lra).
  apply sqrt_lt_1; lra.
Qed.

Lemma PI_below_4 : PI < 4.
Proof.
  pose proof (PI_ineq 1) as [_ H].
  unfold sum_f_R0, tg_alt, PI_tg in H. simpl in H. lra.
Qed.

(** The runs on the level face and on the face of nine entries complete. *)
Lemma level_face_completes :
  __call__ level_face rotate_ref paste_ref 0%nat w0
  = (Return 0%nat, snd (__call__ level_face rotate_ref paste_ref 0%nat w0)).
Proof.
  assert (Hne : fst (0, 0) <> fst (10, 0)) by (cbn; lra).
  rewrite (call_completes level_face rotate_ref paste_ref 0%nat w0 sample_image
             _ _ _ eq_refl eq_refl (0, 0) (10, 0) (5, 10)
             eq_refl eq_refl eq_refl Hne).
  reflexivity.
Qed.

(** C8, as stated, fails on a first row of nine entries: the row is shorter
    than the ten-entry layout, no index beyond 7 is read, and the call
    returns the sample. *)
Lemma nine_entries_accepted :
  (exists bbs (row : list R) rest,
      nine_entries sample_image = (bbs, row :: rest)
      /\ (length row < 10)%nat)
  /\ fst (__call__ nine_entries rotate_ref paste_ref 0%nat w0) = Return 0%nat.
Proof.
  split.
  - do 3 eexists. split; [reflexivity |]. cbn. lia.
  - assert (Hne : fst (0, 0) <> fst (10, 0)) by (cbn; lra).
    rewrite (call_completes nine_entries rotate_ref paste_ref 0%nat w0
               sample_image _ _ _ eq_refl eq_refl (0, 0) (10, 0) (5, 10)
               eq_refl eq_refl eq_refl Hne).
    reflexivity.
Qed.

(** C4, as stated, fails on the distance.  For level eyes at (10.1, 20.4)
    and (30.1, 20.4) and the nose at (20.1, 41.4) the mean of the eyes is
    (20.1, 20.4) and the rotated shape is 44 by 31; the paste coordinate is
    (int(-1.9), int(4.9)) = (-1, 4), so the centre of the pasted region is
    (21, 19.5): 0.9 away in x and 0.9 away in y, more than one pixel away
    from the mean of the eyes. *)
Lemma anchor_center_beyond_one_pixel :
  let w' := snd (__call__ offset_face rotate_ref paste_ref 0%nat w0) in
  exists shape rotated,
    heap w' !! shape = Some rotated
    /\ im_size rotated = (44, 31)%Z
    /\ last (calls w') = Some (Call_paste 0%nat shape (-1, 4)%Z shape)
    /\ midpoint (10.1, 20.4) (30.1, 20.4) = (20.1, 20.4)
    /\ 1 < sqrt ((IZR (-1) + IZR 44 / 2 - 20.1) ^ 2
                 + (IZR 4 + IZR 31 / 2 - 20.4) ^ 2).
Proof.
  assert (Hne : fst (10.1, 20.4) <> fst (30.1, 20.4)) by (cbn; lra).
  cbv zeta.
  rewrite (call_completes offset_face rotate_ref paste_ref 0%nat w0
             sample_image _ _ _ eq_refl eq_refl
             (10.1, 20.4) (30.1, 20.4) (20.1, 41.4)
             eq_refl eq_refl eq_refl Hne).
  cbn [snd heap calls].
  assert (Hmid : midpoint (10.1, 20.4) (30.1, 20.4) = (20.1, 20.4))
    by (unfold midpoint; cbn [fst snd]; f_equal; lra).
  assert (Hw : overlay_width (10.1, 20.4) (30.1, 20.4) = 44).
  { unfold overlay_width, euclid. cbn [fst snd].
    replace ((10.1 - 30.1) ^ 2 + (20.4 - 20.4) ^ 2) with (20 * 20) by lra.
    rewrite sqrt_square by lra. lra. }
  assert (Hh : overlay_height (10.1, 20.4) (30.1, 20.4) (20.1, 41.4) = 31.5).
  { unfold overlay_height. rewrite Hmid. unfold euclid. cbn [fst snd].
    replace ((20.1 - 20.1) ^ 2 + (20.4 - 41.4) ^ 2) with (21 * 21) by lra.
    rewrite sqrt_square by lra. lra. }
  assert (Hslope : - slope_degrees (10.1, 20.4) (30.1, 20.4) = 0)
    by (unfold slope_degrees, Rdiv; cbn [fst snd]; ring).
  assert (Hrect : rectangle_of (10.1, 20.4) (30.1, 20.4) (20.1, 41.4)
                  = solid "RGBA" (44, 31)%Z LightGray).
  { unfold rectangle_of. rewrite Hw, Hh, (ZfloorZ 44).
    rewrite (Zfloor_eq 31 31.5) by (cbn; lra). reflexivity. }
  assert (Hsize : im_size (rotated_of rotate_ref (10.1, 20.4) (30.1, 20.4)
                             (20.1, 41.4)) = (44, 31)%Z).
  { unfold rotated_of. rewrite Hslope, Hrect.
    rewrite rotate_ref_zero_contract by (cbn; lia). reflexivity. }
  exists 2%nat,
    (rotated_of rotate_ref (10.1, 20.4) (30.1, 20.4) (20.1, 41.4)).
  split; [reflexivity |]. split; [exact Hsize |].
  split; [| split; [exact Hmid |]].
  - rewrite last_appended_third, Hsize, Hmid. unfold anchor. cbn [fst snd].
    do 3 f_equal. f_equal.
    + unfold int. destruct (Rlt_dec (20.1 - 44 / 2) 0); [| lra].
      apply Zceil_eq. cbn. lra.
    + unfold int. destruct (Rlt_dec (20.4 - 31 / 2) 0); [lra |].
      apply Zfloor_eq. cbn. lra.
  - rewrite <- sqrt_1 at 1. apply sqrt_lt_1; lra.
Qed.

(** C4, as amended.  Anchor: when the call completes on a non-empty landmark
    result it returns the sample, and its last library call pastes the
    rotated shape (the image that [rotate] made of the light-gray
    rectangle), with the shape itself as mask, at the truncation of
    (midX - rotatedWidth / 2, midY - rotatedHeight / 2), where (midX, midY)
    is the mean of the two eyes; the sample then holds the result of that
    paste on its original content, and the centre of the pasted region is
    less than one pixel away from (midX, midY) in each coordinate. *)
Theorem anchor_property
  detect_faces Image_rotate Image_paste sample w img bbs row rest r w' :
  heap w !! sample = Some img ->
  detect_faces img = (bbs, row :: rest) ->
  __call__ detect_faces Image_rotate Image_paste sample w = (Return r, w') ->
  exists le re n,
    left_eye row = Some le /\ right_eye row = Some re /\ nose row = Some n
    /\ r = sample
    /\ let mid := midpoint le re in
       let width := 2.2 * euclid le re in
       let height := 1.5 * euclid mid n in
       let rectangle :=
         solid "RGBA" (Zfloor width, Zfloor height) LightGray in
       let rotated :=
         Image_rotate rectangle
           (- ((snd re - snd le) / (fst re - fst le) * (180 / PI))) true
           (width / 2, height / 2) in
       let rw := fst (im_size rotated) in
       let rh := snd (im_size rotated) in
       let box := (int (fst mid - IZR rw / 2), int (snd mid - IZR rh / 2)) in
       let shape := S (length (heap w)) in
       heap w' !! shape = Some rotated
       /\ last (calls w') = Some (Call_paste sample shape box shape)
       /\ heap w' !! sample = Some (Image_paste img rotated box rotated)
       /\ Rabs (IZR (fst box) + IZR rw / 2 - fst mid) < 1
       /\ Rabs (IZR (snd box) + IZR rh / 2 - snd mid) < 1.
Proof.
  intros Hs Hd Hrun.
  destruct (left_eye row) as [le |] eqn:Hle;
    [| rewrite (call_IndexError _ _ _ _ _ _ _ _ _ Hs Hd) in Hrun by eauto;
       discriminate].
  destruct (right_eye row) as [re |] eqn:Hre;
    [| rewrite (call_IndexError _ _ _ _ _ _ _ _ _ Hs Hd) in Hrun by eauto;
       discriminate].
  destruct (nose row) as [n |] eqn:Hn;
    [| rewrite (call_IndexError _ _ _ _ _ _ _ _ _ Hs Hd) in Hrun by eauto;
       discriminate].
  destruct (Req_dec_T (fst le) (fst re)) as [E | E].
  { rewrite (call_ZeroDivisionError _ _ _ _ _ _ _ _ _ Hs Hd _ _ _ Hle Hre Hn E)
      in Hrun. discriminate. }
  rewrite (call_completes _ _ _ _ _ _ _ _ _ Hs Hd _ _ _ Hle Hre Hn E) in Hrun.
  injection Hrun as <- <-.
  assert (Hlt : (sample < length (heap w))%nat)
    by (eapply lookup_lt_Some; exact Hs).
  exists le, re, n. repeat (split; [reflexivity |]).
  cbv zeta. cbn [heap calls].
  change (Image_rotate _ _ true _) with (rotated_of Image_rotate le re n).
  split; [rewrite list_lookup_insert_ne by lia;
          apply lookup_appended_second |].
  split; [apply last_appended_third |].
  split; [apply list_lookup_insert_eq; rewrite length_app; lia |].
  split.
  - cbn [fst snd].
    match goal with |- Rabs (IZR (int ?t) + ?h - ?m) < 1 =>
      replace (IZR (int t) + h - m) with (IZR (int t) - t) by lra
    end.
    apply int_within_one.
  - cbn [fst snd].
    match goal with |- Rabs (IZR (int ?t) + ?h - ?m) < 1 =>
      replace (IZR (int t) + h - m) with (IZR (int t) - t) by lra
    end.
    apply int_within_one.
Qed.

Lemma anchor_property_witness :
  exists box,
    last (calls (snd (__call__ level_face rotate_ref paste_ref 0%nat w0)))
    = Some (Call_paste 0%nat 2%nat box 2%nat).
Proof.
  destruct (anchor_property level_face rotate_ref paste_ref 0%nat w0
              sample_image _ _ _ 0%nat _ eq_refl eq_refl level_face_completes)
    as (le & re & n & _ & _ & _ & _ & _ & Hlast & _).
  eexists. exact Hlast.
Defined.

(** C10. Frame property: with a [paste] that meets its contract, when the
    call completes on a non-empty landmark result the sample image keeps its
    original value at every pixel outside the region of its last library
    call (the box of the rotated shape's size at the paste coordinate), and
    at every pixel of that region where the rotated shape has alpha zero. *)
Theorem frame_property
  detect_faces Image_rotate Image_paste sample w img bbs row rest r w' :
  paste_contract Image_paste ->
  heap w !! sample = Some img ->
  detect_faces img = (bbs, row :: rest) ->
  __call__ detect_faces Image_rotate Image_paste sample w = (Return r, w') ->
  exists shape rotated box img',
    last (calls w') = Some (Call_paste sample shape box shape)
    /\ heap w' !! shape = Some rotated
    /\ heap w' !! sample = Some img'
    /\ forall x y,
        in_box box (im_size rotated) x y = false
        \/ alpha (getpixel rotated (x - fst box) (y - snd box)) = 0%Z ->
        getpixel img' x y = getpixel img x y.
Proof.
  intros Hpaste Hs Hd Hrun.
  destruct (left_eye row) as [le |] eqn:Hle;
    [| rewrite (call_IndexError _ _ _ _ _ _ _ _ _ Hs Hd) in Hrun by eauto;
       discriminate].
  destruct (right_eye row) as [re |] eqn:Hre;
    [| rewrite (call_IndexError _ _ _ _ _ _ _ _ _ Hs Hd) in Hrun by eauto;
       discriminate].
  destruct (nose row) as [n |] eqn:Hn;
    [| rewrite (call_IndexError _ _ _ _ _ _ _ _ _ Hs Hd) in Hrun by eauto;
       discriminate].
  destruct (Req_dec_T (fst le) (fst re)) as [E | E].
  { rewrite (call_ZeroDivisionError _ _ _ _ _ _ _ _ _ Hs Hd _ _ _ Hle Hre Hn E)
      in Hrun. discriminate. }
  rewrite (call_completes _ _ _ _ _ _ _ _ _ Hs Hd _ _ _ Hle Hre Hn E) in Hrun.
  injection Hrun as _ <-.
  assert (Hlt : (sample < length (heap w))%nat)
    by (eapply lookup_lt_Some; exact Hs).
  eexists (S (length (heap w))), (rotated_of Image_rotate le re n), _, _.
  cbn [heap calls]. split; [apply last_appended_third |].
  split; [rewrite list_lookup_insert_ne by lia; apply lookup_appended_second |].
  split; [apply list_lookup_insert_eq; rewrite length_app; lia |].
  intros x y Hxy. now apply Hpaste.
Qed.

Lemma frame_property_witness :
  exists img',
    heap (snd (__call__ level_face rotate_ref paste_ref 0%nat w0)) !! 0%nat
    = Some img'.
Proof.
  destruct (frame_property level_face rotate_ref paste_ref 0%nat w0
              sample_image _ _ _ 0%nat _ paste_ref_contract
              eq_refl eq_refl level_face_completes)
    as (shape & rotated & box & img' & _ & _ & Himg & _).
  exists img'. exact Himg.
Defined.


(** What lines 24 and 25 do otherwise.  When the eyes of the first row
    differ in x, the second library call rotates the rectangle by the
    negative of ((rightEyeY - leftEyeY) / (rightEyeX - leftEyeX)) * 180 / pi
    degrees, with the canvas expanded, about the point (width / 2,
    height / 2) taken from the width and height before truncation; that
    point is at most half a pixel to the right of and below the centre of
    the rectangle.  For eyes at (0,0) and (10,10) the angle is 180 / pi,
    which is not 45. *)
Theorem rotation_call
  detect_faces Image_rotate Image_paste sample w img bbs row rest le re n :
  heap w !! sample = Some img ->
  detect_faces img = (bbs, row :: rest) ->
  left_eye row = Some le -> right_eye row = Some re -> nose row = Some n ->
  fst re <> fst le ->
  let width := 2.2 * euclid le re in
  let height := 1.5 * euclid (midpoint le re) n in
  let angle := (snd re - snd le) / (fst re - fst le) * (180 / PI) in
  let w' := snd (__call__ detect_faces Image_rotate Image_paste sample w) in
  calls w' !! S (length (calls w))
  = Some (Call_rotate (length (heap w)) (- angle) true
            (width / 2, height / 2))
  /\ (exists rectangle,
        heap w' !! length (heap w) = Some rectangle
        /\ heap w' !! S (length (heap w))
           = Some (Image_rotate rectangle (- angle) true
                     (width / 2, height / 2))
        /\ 0 <= width / 2 - fst (image_center rectangle) < 1 / 2
        /\ 0 <= height / 2 - snd (image_center rectangle) < 1 / 2)
  /\ (le = (0, 0) -> re = (10, 10) -> angle = 180 / PI /\ angle <> 45).
Proof.
  intros Hs Hd Hle Hre Hn Hne width height angle w'.
  assert (Hlt : (sample < length (heap w))%nat)
    by (eapply lookup_lt_Some; exact Hs).
  assert (E : fst le <> fst re) by (intros E; apply Hne; now rewrite E).
  subst w'.
  rewrite (call_completes _ _ _ _ _ _ _ _ _ Hs Hd _ _ _ Hle Hre Hn E).
  cbn [snd heap calls]. split; [| split].
  - apply lookup_appended_second.
  - exists (rectangle_of le re n). repeat split.
    + rewrite list_lookup_insert_ne by lia. apply lookup_appended_first.
    + rewrite list_lookup_insert_ne by lia. apply lookup_appended_second.
    + unfold image_center, rectangle_of. cbn [im_size solid fst].
      pose proof (Zfloor_bound (overlay_width le re)).
      unfold overlay_width in *. fold width in H |- *. lra.
    + unfold image_center, rectangle_of. cbn [im_size solid fst].
      pose proof (Zfloor_bound (overlay_width le re)).
      unfold overlay_width in *. fold width in H |- *. lra.
    + unfold image_center, rectangle_of. cbn [im_size solid snd].
      pose proof (Zfloor_bound (overlay_height le re n)).
      unfold overlay_height in *. fold height in H |- *. lra.
    + unfold image_center, rectangle_of. cbn [im_size solid snd].
      pose proof (Zfloor_bound (overlay_height le re n)).
      unfold overlay_height in *. fold height in H |- *. lra.
  - intros -> ->. subst angle. cbn [fst snd].
    pose proof PI_neq0. pose proof PI_below_4. pose proof PI_RGT_0.
    assert (Hval : (10 - 0) / (10 - 0) * (180 / PI) = 180 / PI)
      by (field; assumption).
    split; [exact Hval |]. rewrite Hval. intros Heq.
    assert (180 = 45 * PI) by (rewrite <- Heq; field; assumption).
    lra.
Qed.

Lemma rotation_call_witness :
  calls (snd (__call__ tilted_face rotate_ref paste_ref 0%nat w0)) !! 1%nat
  = Some (Call_rotate 1%nat (- ((10 - 0) / (10 - 0) * (180 / PI))) true
            (2.2 * euclid (0, 0) (10, 10) / 2,
             1.5 * euclid (midpoint (0, 0) (10, 10)) (5, 15) / 2)).
Proof.
  refine (proj1 (rotation_call tilted_face rotate_ref paste_ref 0%nat w0
                   sample_image _ _ _ (0, 0) (10, 10) (5, 15)
                   eq_refl eq_refl eq_refl eq_refl eq_refl _)).
  cbn. lra.
Defined.

(** C6, as stated, fails on the height.  For eyes at (0,0) and (10,0) and
    the nose at (5,10) the mean of the eyes is (5,0), ten pixels above the
    nose: the height is 15, the rectangle is 15 pixels high and is turned
    about (11, 7.5), whereas 1.5 * sqrt(125) is more than 16. *)
Lemma geometry_instance_height :
  let w' := snd (__call__ level_face rotate_ref paste_ref 0%nat w0) in
  exists width height self angle,
    calls w' !! 0%nat
    = Some (Call_new "RGBA" (Zfloor width, Zfloor height) LightGray)
    /\ calls w' !! 1%nat
       = Some (Call_rotate self angle true (width / 2, height / 2))
    /\ height = 15
    /\ Zfloor height = 15%Z
    /\ height <> 1.5 * sqrt 125
    /\ (Zfloor height < Zfloor (1.5 * sqrt 125))%Z.
Proof.
  assert (Hne : fst (0, 0) <> fst (10, 0)) by (cbn; lra).
  cbv zeta.
  rewrite (call_completes level_face rotate_ref paste_ref 0%nat w0
             sample_image _ _ _ eq_refl eq_refl (0, 0) (10, 0) (5, 10)
             eq_refl eq_refl eq_refl Hne).
  cbn [snd heap calls].
  exists (overlay_width (0, 0) (10, 0)), (overlay_height (0, 0) (10, 0) (5, 10)),
    1%nat, (- slope_degrees (0, 0) (10, 0)).
  split; [reflexivity |]. split; [reflexivity |].
  rewrite level_height. pose proof sqrt_125_above as Hs.
  split; [reflexivity |]. split; [apply (ZfloorZ 15) |].
  split; [lra |].
  rewrite (ZfloorZ 15).
  assert (16 <= Zfloor (1.5 * sqrt 125))%Z by (apply Zfloor_lub; lra).
  lia.
Qed.

(** C6, as amended.  Concrete geometry: for eyes at (0,0) and (10,0) and
    the nose at (5,10) the width is 22 and the height is 15; the rectangle
    is built with size (22, 15) and is turned by an angle of 0 about
    (11, 7.5); with a [rotate] that keeps the size at angle 0, the rotated
    rectangle has the size of the rectangle. *)
Theorem geometry_instance
  detect_faces Image_rotate Image_paste sample w img bbs row rest :
  rotate_zero_contract Image_rotate ->
  heap w !! sample = Some img ->
  detect_faces img = (bbs, row :: rest) ->
  left_eye row = Some (0, 0) ->
  right_eye row = Some (10, 0) ->
  nose row = Some (5, 10) ->
  let w' := snd (__call__ detect_faces Image_rotate Image_paste sample w) in
  2.2 * euclid (0, 0) (10, 0) = 22
  /\ 1.5 * euclid (midpoint (0, 0) (10, 0)) (5, 10) = 15
  /\ calls w' !! length (calls w)
     = Some (Call_new "RGBA" (22, 15)%Z LightGray)
  /\ calls w' !! S (length (calls w))
     = Some (Call_rotate (length (heap w)) 0 true (22 / 2, 15 / 2))
  /\ exists rectangle rotated,
      heap w' !! length (heap w) = Some rectangle
      /\ heap w' !! S (length (heap w)) = Some rotated
      /\ im_size rectangle = (22, 15)%Z
      /\ im_size rotated = im_size rectangle.
Proof.
  intros Hrot Hs Hd Hle Hre Hn w'.
  assert (Hlt : (sample < length (heap w))%nat)
    by (eapply lookup_lt_Some; exact Hs).
  assert (Hne : fst (0, 0) <> fst (10, 0)) by (cbn; lra).
  subst w'.
  rewrite (call_completes _ _ _ _ _ _ _ _ _ Hs Hd _ _ _ Hle Hre Hn Hne).
  cbn [snd heap calls].
  assert (Hrect : rectangle_of (0, 0) (10, 0) (5, 10)
                  = solid "RGBA" (22, 15)%Z LightGray).
  { unfold rectangle_of. rewrite level_width, level_height.
    now rewrite (ZfloorZ 22), (ZfloorZ 15). }
  assert (Hturn : rotated_of Image_rotate (0, 0) (10, 0) (5, 10)
                  = Image_rotate (solid "RGBA" (22, 15)%Z LightGray) 0 true
                      (22 / 2, 15 / 2)).
  { unfold rotated_of. rewrite Hrect, level_width, level_height, level_slope.
    now rewrite Ropp_0. }
  split; [exact level_width |]. split; [exact level_height |].
  split; [| split].
  - rewrite lookup_appended_first, level_width, level_height.
    now rewrite (ZfloorZ 22), (ZfloorZ 15).
  - rewrite lookup_appended_second, level_width, level_height, level_slope.
    now rewrite Ropp_0.
  - exists (rectangle_of (0, 0) (10, 0) (5, 10)),
      (rotated_of Image_rotate (0, 0) (10, 0) (5, 10)).
    split; [rewrite list_lookup_insert_ne by lia;
            apply lookup_appended_first |].
    split; [rewrite list_lookup_insert_ne by lia;
            apply lookup_appended_second |].
    rewrite Hturn, Hrect. split; [reflexivity |].
    apply Hrot; cbn; lia.
Qed.

Lemma geometry_instance_witness :
  calls (snd (__call__ level_face rotate_ref paste_ref 0%nat w0)) !! 0%nat
  = Some (Call_new "RGBA" (22, 15)%Z LightGray).
Proof.
  exact (proj1 (proj2 (proj2
           (geometry_instance level_face rotate_ref paste_ref 0%nat w0
              sample_image _ _ _ rotate_ref_zero_contract
              eq_refl eq_refl eq_refl eq_refl eq_refl)))).
Defined.

(** * Further properties of [__call__] *)

(** ** Geometry under exchange of the eyes *)

Lemma euclid_sym p q : euclid p q = euclid q p.
Proof. unfold euclid. f_equal. ring. Qed.

Lemma overlay_width_exchange le re : overlay_width le re = overlay_width re le.
Proof. unfold overlay_width. now rewrite euclid_sym. Qed.

Lemma overlay_height_exchange le re n :
  overlay_height le re n = overlay_height re le n.
Proof. unfold overlay_height. now rewrite midpoint_comm. Qed.

Lemma slope_degrees_exchange le re :
  fst le <> fst re -> slope_degrees le re = slope_degrees re le.
Proof.
  intros Hne. unfold slope_degrees. pose proof PI_neq0.
  field. repeat split; lra.
Qed.

Lemma level_eyes_distance (le re : point) :
  snd le = snd re -> euclid le re = Rabs (fst re - fst le).
Proof.
  intros E. unfold euclid. rewrite E.
  replace ((fst le - fst re) ^ 2 + (snd re - snd re) ^ 2)
    with (Rsqr (fst re - fst le)) by (unfold Rsqr; ring).
  apply sqrt_Rsqr_abs.
Qed.

Lemma degrees_per_radian_above : 45 < 180 / PI.
Proof.
  pose proof PI_RGT_0. pose proof PI_below_4.
  apply Rmult_lt_reg_r with PI; [assumption |].
  replace (180 / PI * PI) with 180 by (field; lra). lra.
Qed.

(** * Further properties, stated *)

(** X2. Frame of the heap: whatever the outcome, every object other than
    the sample that existed before the run is as it was, and the run adds at
    most two objects (the rectangle and the rotated rectangle). *)
Theorem other_objects_untouched
  detect_faces Image_rotate Image_paste sample w img bbs lm r :
  heap w !! sample = Some img ->
  detect_faces img = (bbs, lm) ->
  r <> sample ->
  (r < length (heap w))%nat ->
  let w' := snd (__call__ detect_faces Image_rotate Image_paste sample w) in
  heap w' !! r = heap w !! r
  /\ (length (heap w) <= length (heap w') <= length (heap w) + 2)%nat.
Proof.
  intros Hs Hd Hr Hlt w'. subst w'.
  destruct (call_cases detect_faces Image_rotate Image_paste _ _ _ _ _ Hs Hd)
    as [[_ ->] | [(row & rest & _ & _ & ->)
                  | (row & rest & le & re & n & _ & _ & _ & _ & _
                     & [[_ ->] | [_ ->]])]];
    cbn [snd heap].
  - split; [reflexivity | lia].
  - split; [reflexivity | lia].
  - rewrite lookup_app_l by lia. rewrite length_app. cbn. split; [reflexivity | lia].
  - rewrite list_lookup_insert_ne by congruence.
    rewrite lookup_app_l by lia.
    rewrite length_insert, length_app. cbn. split; [reflexivity | lia].
Qed.

Lemma other_objects_untouched_witness :
  let w1 := {| heap := [sample_image; solid "L" (2, 2)%Z (7, 7, 7)%Z];
               calls := [] |} in
  heap (snd (__call__ level_face rotate_ref paste_ref 0%nat w1)) !! 1%nat
  = Some (solid "L" (2, 2)%Z (7, 7, 7)%Z).
Proof.
  intros w1.
  refine (proj1 (other_objects_untouched level_face rotate_ref paste_ref
                   0%nat w1 sample_image _ _ 1%nat eq_refl eq_refl _ _)).
  - discriminate.
  - cbn. lia.
Defined.

(** X3. A run that raises has changed no image: every object of the heap,
    the sample included, is as it was before the run. *)
Theorem failure_changes_no_image
  detect_faces Image_rotate Image_paste sample w img bbs lm e w' :
  heap w !! sample = Some img ->
  detect_faces img = (bbs, lm) ->
  __call__ detect_faces Image_rotate Image_paste sample w = (Raise e, w') ->
  forall r im, heap w !! r = Some im -> heap w' !! r = Some im.
Proof.
  intros Hs Hd Hrun r im Hr.
  destruct (call_cases detect_faces Image_rotate Image_paste _ _ _ _ _ Hs Hd)
    as [[_ E] | [(row & rest & _ & _ & E)
                 | (row & rest & le & re & n & _ & _ & _ & _ & _
                    & [[_ E] | [_ E]])]];
    rewrite E in Hrun; try discriminate.
  - injection Hrun as _ <-. exact Hr.
  - injection Hrun as _ <-. cbn [heap].
    rewrite lookup_app_l by (eapply lookup_lt_Some; exact Hr). exact Hr.
Qed.

Lemma failure_changes_no_image_witness :
  heap (snd (__call__ upright_face rotate_ref paste_ref 0%nat w0)) !! 0%nat
  = Some sample_image.
Proof.
  assert (Hrun : __call__ upright_face rotate_ref paste_ref 0%nat w0
                 = (Raise ZeroDivisionError,
                    snd (__call__ upright_face rotate_ref paste_ref 0%nat w0))).
  { rewrite (call_ZeroDivisionError upright_face rotate_ref paste_ref 0%nat w0
               sample_image _ _ _ eq_refl eq_refl (4, 0) (4, 10) (9, 5)
               eq_refl eq_refl eq_refl eq_refl).
    reflexivity. }
  exact (failure_changes_no_image upright_face rotate_ref paste_ref 0%nat w0
           sample_image _ _ _ _ eq_refl eq_refl Hrun 0%nat sample_image
           eq_refl).
Defined.



(** X5. The two eyes are interchangeable: a first row that lists the same
    two eye points in the other order, with the same nose, gives the same
    outcome and the same final world. *)
Theorem eyes_interchangeable
  detect1 detect2 Image_rotate Image_paste sample w img
  bbs1 bbs2 (row1 row2 : list R) rest1 rest2 :
  heap w !! sample = Some img ->
  detect1 img = (bbs1, row1 :: rest1) ->
  detect2 img = (bbs2, row2 :: rest2) ->
  left_eye row2 = right_eye row1 ->
  right_eye row2 = left_eye row1 ->
  nose row2 = nose row1 ->
  __call__ detect1 Image_rotate Image_paste sample w
  = __call__ detect2 Image_rotate Image_paste sample w.
Proof.
  intros Hs H1 H2 El Er En.
  destruct (left_eye row1) as [le |] eqn:Hle;
    [| rewrite (call_IndexError _ _ _ _ _ _ _ _ _ Hs H1) by eauto;
       rewrite (call_IndexError _ _ _ _ _ _ _ _ _ Hs H2) by eauto;
       reflexivity].
  destruct (right_eye row1) as [re |] eqn:Hre;
    [| rewrite (call_IndexError _ _ _ _ _ _ _ _ _ Hs H1) by eauto;
       rewrite (call_IndexError _ _ _ _ _ _ _ _ _ Hs H2) by eauto;
       reflexivity].
  destruct (nose row1) as [n |] eqn:Hn;
    [| rewrite (call_IndexError _ _ _ _ _ _ _ _ _ Hs H1) by eauto;
       rewrite (call_IndexError _ _ _ _ _ _ _ _ _ Hs H2) by eauto;
       reflexivity].
  destruct (Req_dec_T (fst le) (fst re)) as [E | E].
  - rewrite (call_ZeroDivisionError _ _ _ _ _ _ _ _ _ Hs H1
               _ _ _ Hle Hre Hn E).
    rewrite (call_ZeroDivisionError _ _ _ _ _ _ _ _ _ Hs H2
               _ _ _ El Er En (eq_sym E)).
    unfold rectangle_of.
    now rewrite (overlay_width_exchange re le),
      (overlay_height_exchange re le n).
  - assert (E' : fst re <> fst le) by (intros X; apply E; now rewrite X).
    rewrite (call_completes _ _ _ _ _ _ _ _ _ Hs H1 _ _ _ Hle Hre Hn E).
    rewrite (call_completes _ _ _ _ _ _ _ _ _ Hs H2 _ _ _ El Er En E').
    unfold rotated_of, rectangle_of.
    now rewrite (overlay_width_exchange re le),
      (overlay_height_exchange re le n), (slope_degrees_exchange re le E'),
      (midpoint_comm re le).
Qed.

Lemma eyes_interchangeable_witness :
  __call__ level_face rotate_ref paste_ref 0%nat w0
  = __call__ exchanged_face rotate_ref paste_ref 0%nat w0.
Proof.
  exact (eyes_interchangeable level_face exchanged_face rotate_ref paste_ref
           0%nat w0 sample_image _ _ _ _ _ _
           eq_refl eq_refl eq_refl eq_refl eq_refl eq_refl).
Defined.

(** X7. Level eyes: when the two eyes have the same y and different x, the
    width is 2.2 times the horizontal gap, [rotate] is asked for an angle
    of 0, and with a [rotate] that keeps the size at angle 0 the shape that
    is pasted has the size of the rectangle, (floor(width),
    floor(height)), and is anchored with that size. *)
Theorem level_eyes_no_rotation
  detect_faces Image_rotate Image_paste sample w img bbs row rest le re n :
  rotate_zero_contract Image_rotate ->
  heap w !! sample = Some img ->
  detect_faces img = (bbs, row :: rest) ->
  left_eye row = Some le -> right_eye row = Some re -> nose row = Some n ->
  snd le = snd re ->
  fst le <> fst re ->
  let width := 2.2 * Rabs (fst re - fst le) in
  let height := 1.5 * euclid (midpoint le re) n in
  let w' := snd (__call__ detect_faces Image_rotate Image_paste sample w) in
  calls w' !! S (length (calls w))
  = Some (Call_rotate (length (heap w)) 0 true (width / 2, height / 2))
  /\ last (calls w')
     = Some (Call_paste sample (S (length (heap w)))
               (anchor (midpoint le re) (Zfloor width, Zfloor height))
               (S (length (heap w))))
  /\ exists rotated,
      heap w' !! S (length (heap w)) = Some rotated
      /\ im_size rotated = (Zfloor width, Zfloor height).
Proof.
  intros Hrot Hs Hd Hle Hre Hn Ey Ex width height w'. subst w'.
  assert (Hlt : (sample < length (heap w))%nat)
    by (eapply lookup_lt_Some; exact Hs).
  assert (Hw : overlay_width le re = width)
    by (unfold overlay_width; now rewrite level_eyes_distance).
  assert (Hslope : - slope_degrees le re = 0)
    by (unfold slope_degrees, Rdiv; rewrite Ey; ring).
  assert (Hsize : im_size (rotated_of Image_rotate le re n)
                  = (Zfloor width, Zfloor height)).
  { unfold rotated_of. rewrite Hslope, Hrot.
    - unfold rectangle_of. cbn [im_size solid]. now rewrite Hw.
    - cbn. apply Zfloor_nonneg, overlay_width_nonneg.
    - cbn. apply Zfloor_nonneg, overlay_height_nonneg. }
  rewrite (call_completes _ _ _ _ _ _ _ _ _ Hs Hd _ _ _ Hle Hre Hn Ex).
  cbn [snd heap calls]. split; [| split].
  - rewrite lookup_appended_second, Hslope, Hw. reflexivity.
  - rewrite last_appended_third, Hsize. reflexivity.
  - exists (rotated_of Image_rotate le re n). split; [| exact Hsize].
    rewrite list_lookup_insert_ne by lia. apply lookup_appended_second.
Qed.

Lemma level_eyes_no_rotation_witness :
  exists rotated,
    heap (snd (__call__ level_face rotate_ref paste_ref 0%nat w0)) !! 2%nat
    = Some rotated
    /\ im_size rotated
       = (Zfloor (2.2 * Rabs (10 - 0)),
          Zfloor (1.5 * euclid (midpoint (0, 0) (10, 0)) (5, 10))).
Proof.
  refine (proj2 (proj2
            (level_eyes_no_rotation level_face rotate_ref paste_ref 0%nat w0
               sample_image _ _ _ (0, 0) (10, 0) (5, 10)
               rotate_ref_zero_contract
               eq_refl eq_refl eq_refl eq_refl eq_refl eq_refl _))).
  cbn. lra.
Defined.

(** X8. The tilt is not bounded by a quarter turn: when the right eye is to
    the right of the left eye and at least twice as far below it as to the
    right, [rotate] is asked for an angle below -90 degrees, which the
    arctangent of a slope never reaches. *)
Theorem steep_eyes_turn_beyond_quarter
  detect_faces Image_rotate Image_paste sample w img bbs row rest le re n :
  heap w !! sample = Some img ->
  detect_faces img = (bbs, row :: rest) ->
  left_eye row = Some le -> right_eye row = Some re -> nose row = Some n ->
  0 < fst re - fst le ->
  2 * (fst re - fst le) <= snd re - snd le ->
  let w' := snd (__call__ detect_faces Image_rotate Image_paste sample w) in
  exists angle center,
    calls w' !! S (length (calls w))
    = Some (Call_rotate (length (heap w)) angle true center)
    /\ angle < - 90
    /\ forall slope, - 90 < - (atan slope * (180 / PI)).
Proof.
  intros Hs Hd Hle Hre Hn Hdx Hdy w'. subst w'.
  assert (Ex : fst le <> fst re) by lra.
  rewrite (call_completes _ _ _ _ _ _ _ _ _ Hs Hd _ _ _ Hle Hre Hn Ex).
  cbn [snd calls]. eexists _, _.
  split; [apply lookup_appended_second |].
  pose proof degrees_per_radian_above as Hdeg.
  pose proof PI_RGT_0 as Hpi.
  split.
  - unfold slope_degrees.
    assert (Hslope : 2 <= (snd re - snd le) / (fst re - fst le)).
    { apply Rmult_le_reg_r with (fst re - fst le); [exact Hdx |].
      replace ((snd re - snd le) / (fst re - fst le) * (fst re - fst le))
        with (snd re - snd le) by (field; lra).
      exact Hdy. }
    nra.
  - intros slope. pose proof (atan_bound slope) as [_ Hup].
    assert (atan slope * (180 / PI) < PI / 2 * (180 / PI))
      by (apply Rmult_lt_compat_r; lra).
    replace (PI / 2 * (180 / PI)) with 90 in H by (field; lra).
    lra.
Qed.

Lemma steep_eyes_turn_beyond_quarter_witness :
  exists angle center,
    calls (snd (__call__ steep_face rotate_ref paste_ref 0%nat w0)) !! 1%nat
    = Some (Call_rotate 1%nat angle true center)
    /\ angle < - 90.
Proof.
  destruct (steep_eyes_turn_beyond_quarter steep_face rotate_ref paste_ref
              0%nat w0 sample_image _ _ _ (0, 0) (1, 2) (0, 3)
              eq_refl eq_refl eq_refl eq_refl eq_refl)
    as (angle & center & Hcall & Hangle & _); [cbn; lra | cbn; lra |].
  exists angle, center. split; assumption.
Defined.
